(** * A shallow embedding of the tool server [src/server.py]

    The server registers a handful of independent tools.  Each tool is a
    Python function that calls into pandas, pyarrow, matplotlib and the
    operating system, prints diagnostics, and either returns a value or
    raises.  The embedding below follows the functions statement by
    statement:

    - Python values that the tools receive are a tagged type [pyvalue];
    - effects (standard output, the file system, pyplot's registry of open
      figures) are fields of a [World] that is threaded through a state and
      exception monad [Py];
    - library calls that touch the outside world may fail for reasons the
      program cannot see; which call fails, and with which exception, is
      decided by a fault oracle over which every theorem quantifies;
    - [filter_arrow_table_by_expr] hands a string to [DataFrame.query],
      which evaluates it with pandas' own grammar and name resolution; the
      tool is embedded over the library calls it makes ([Pandas]), and what
      is proved about its control flow holds whatever they do. *)

From Stdlib Require Import ZArith Lia Ascii String.
From stdpp Require Import base option list strings gmap.

Local Open Scope Z_scope.

(** ** Exceptions *)

(** The classes of exception that occur in the program and in the library
    calls it makes.  All of them derive from Python's [Exception]; the
    asynchronous [BaseException]s (keyboard interrupt, interpreter exit) are
    outside the model. *)
Inductive exn_class :=
  | ArrowInvalid
  | ArrowTypeError
  | ValueError
  | TypeError
  | AttributeError
  | KeyError
  | SyntaxError
  | UndefinedVariableError
  | FileNotFoundError
  | OSError
  | RuntimeError
  | FileExistsError.

Record exn := Exn { exn_cls : exn_class; exn_msg : string }.

#[global] Instance exn_class_eq_dec : EqDecision exn_class.
Proof. solve_decision. Defined.

(** [isinstance(e, pa.ArrowInvalid)]: the first handler of
    [read_csv_with_arrow]. *)
Definition is_ArrowInvalid (e : exn) : bool :=
  bool_decide (exn_cls e = ArrowInvalid).

(** ** Tabular data *)

(** A cell is an integer or a string; floating point cells are outside the
    model. *)
Inductive cell :=
  | CInt (z : Z)
  | CStr (s : string).

#[global] Instance cell_eq_dec : EqDecision cell.
Proof. solve_decision. Defined.

(** A column is a name with its values; a frame keeps its columns in
    order. *)
Definition columns := list (string * list cell).

(** [pyarrow.Table]: named columns in order, and, in the schema metadata
    that [Table.from_pandas] writes, the name of the column that stores the
    pandas index (if the index was stored as a column). *)
Record Table := mkTable {
  tcols : columns;
  tindex : option string
}.

(** The row labels of a [pandas.DataFrame]: the default range [0..n-1], or
    explicit labels. *)
Inductive Index :=
  | RangeIndex (n : nat)
  | LabelIndex (labels : list cell).

Record DataFrame := mkDataFrame {
  dcols : columns;
  dindex : Index
}.

#[global] Instance Table_eq_dec : EqDecision Table.
Proof. solve_decision. Defined.
#[global] Instance Index_eq_dec : EqDecision Index.
Proof. solve_decision. Defined.
#[global] Instance DataFrame_eq_dec : EqDecision DataFrame.
Proof. solve_decision. Defined.

Definition column_names (cs : columns) : list string := map fst cs.

(** The number of rows of a list of columns: the length of the first. *)
Definition height (cs : columns) : nat :=
  match cs with
  | [] => O
  | (_, vs) :: _ => length vs
  end.

(** [table.num_rows], [table.num_columns], [table.column_names]. *)
Definition num_rows (t : Table) : nat := height (tcols t).
Definition num_columns (t : Table) : nat := length (tcols t).

(** [len(df)]: the length of the index. *)
Definition index_labels (i : Index) : list cell :=
  match i with
  | RangeIndex n => map (fun k => CInt (Z.of_nat k)) (seq 0 n)
  | LabelIndex ls => ls
  end.
Definition index_length (i : Index) : nat :=
  match i with
  | RangeIndex n => n
  | LabelIndex ls => length ls
  end.
Definition df_len (df : DataFrame) : nat := index_length (dindex df).

(** ** Python values received by the tools *)

(** The value of a dict entry: a scalar, or a list of scalars. *)
Inductive entry :=
  | Scalar (c : cell)
  | Array (cs : list cell).

(** A Python dict with string keys keeps insertion order, hence an
    association list. *)
Definition pydict := list (string * entry).

(** The arguments typed [Any] or [dict] in the source range over these
    shapes: [None], a number, a string, a dict, a list of records (each a
    dict of scalars), an Arrow table, a pandas frame. *)
Inductive pyvalue :=
  | PyNone
  | PyBool (b : bool)
  | PyInt (z : Z)
  | PyStr (s : string)
  | PyDict (d : pydict)
  | PyRecords (rs : list (list (string * cell)))
  | PyTable (t : Table)
  | PyDataFrame (df : DataFrame).

Definition isinstance_dict (v : pyvalue) : bool :=
  match v with PyDict _ => true | _ => false end.
Definition isinstance_DataFrame (v : pyvalue) : bool :=
  match v with PyDataFrame _ => true | _ => false end.
Definition isinstance_Table (v : pyvalue) : bool :=
  match v with PyTable _ => true | _ => false end.

(** ** The world *)

(** What a file holds, as far as the tools can tell. *)
Inductive file :=
  | DelimitedFile (t : Table)
  | ParquetFile (t : Table)
  | PngFile (bars : list (string * entry)) (title xlabel ylabel : string)
  | OtherFile (content : string).

(** A pyplot figure under construction. *)
Record Figure := mkFigure {
  fig_bars : list (string * entry);
  fig_title : string;
  fig_xlabel : string;
  fig_ylabel : string;
  fig_grid : bool;
  fig_tight : bool
}.

(** One argument of a [print] call: the literal and interpolated pieces of
    an f-string are kept apart, so that no rendering has to be chosen. *)
Inductive piece :=
  | Lit (s : string)
  | ShowInt (z : Z)
  | ShowStr (s : string)
  | ShowExn (e : exn)
  | ShowCells (cs : list cell)
  | ShowFrame (df : DataFrame).

Record World := mkWorld {
  stdout : list (list piece);       (* lines printed so far, oldest first *)
  files : gmap string file;         (* regular files by path *)
  dirs : gset string;               (* directories by path *)
  figures : list Figure             (* pyplot's open figures, current first *)
}.

(** The library calls that reach outside the process.  The oracle decides,
    from the call and the world it is made in, whether the call fails. *)
Inductive call :=
  | ReadCsv (path : string)
  | WriteParquet (path : string)
  | WriteCsv (path : string)
  | PltBar
  | Mkdir (path : string)
  | Remove (path : string)
  | Savefig (path : string).

Definition oracle := call -> World -> option exn.

(** ** The monad of Python computations *)

Inductive outcome (A : Type) :=
  | Return (a : A)
  | Raise (e : exn).
Arguments Return {A} a.
Arguments Raise {A} e.

Definition Py (A : Type) : Type := World -> World * outcome A.

#[global] Instance Py_ret : MRet Py := fun A a w => (w, Return a).
#[global] Instance Py_bind : MBind Py := fun A B f m w =>
  match m w with
  | (w', Return a) => f a w'
  | (w', Raise e) => (w', Raise e)
  end.

Definition raise {A} (cls : exn_class) (msg : string) : Py A :=
  fun w => (w, Raise (Exn cls msg)).

(** [try: body except Exception as e: handler e].  Effects of the body up
    to the raise are kept. *)
Definition try_except {A} (body : Py A) (handler : exn -> Py A) : Py A :=
  fun w =>
    match body w with
    | (w', Return a) => (w', Return a)
    | (w', Raise e) => handler e w'
    end.

(** Lift a pure computation that may raise. *)
Definition lift {A} (r : outcome A) : Py A := fun w => (w, r).

Definition print (line : list piece) : Py unit :=
  fun w => (mkWorld (stdout w ++ [line]) (files w) (dirs w) (figures w), Return tt).

(** ** Strings and paths *)

(** The part of [s] before the last occurrence of [c], if [c] occurs. *)
Fixpoint before_last (c : ascii) (s : string) : option string :=
  match s with
  | EmptyString => None
  | String a s' =>
      match before_last c s' with
      | Some p => Some (String a p)
      | None => if Ascii.eqb a c then Some EmptyString else None
      end
  end.

(** [s.rsplit(c, 1)[0]]: the whole string when [c] does not occur. *)
Definition rsplit1_head (c : ascii) (s : string) : string :=
  match before_last c s with
  | Some p => p
  | None => s
  end.

(** [s.rstrip(c)]. *)
Fixpoint rstrip (c : ascii) (s : string) : string :=
  match s with
  | EmptyString => EmptyString
  | String a s' =>
      match rstrip c s' with
      | EmptyString => if Ascii.eqb a c then EmptyString else String a EmptyString
      | r => String a r
      end
  end.

Fixpoint all_chars (c : ascii) (s : string) : bool :=
  match s with
  | EmptyString => true
  | String a s' => Ascii.eqb a c && all_chars c s'
  end.

(** [os.path.dirname] of [posixpath]: the path up to and including the last
    slash, with trailing slashes removed unless it consists of slashes
    only. *)
Definition dirname (p : string) : string :=
  let head :=
    match before_last "/" p with
    | Some h => h +:+ "/"
    | None => ""
    end in
  if negb (String.eqb head "") && negb (all_chars "/" head)
  then rstrip "/" head
  else head.

(** ** pandas and pyarrow, as far as the tools use them *)

Fixpoint assoc {A} (k : string) (l : list (string * A)) : option A :=
  match l with
  | [] => None
  | (k', v) :: l' => if String.eqb k k' then Some v else assoc k l'
  end.

(** Drop the first column called [k]. *)
Fixpoint remove_column (k : string) (cs : columns) : columns :=
  match cs with
  | [] => []
  | (k', v) :: cs' =>
      if String.eqb k k' then cs' else (k', v) :: remove_column k cs'
  end.

Definition array_lengths (d : pydict) : list nat :=
  omap (fun kv => match snd kv with Array cs => Some (length cs) | Scalar _ => None end) d.

Definition all_equal (n : nat) (ns : list nat) : bool :=
  forallb (Nat.eqb n) ns.

(** [pd.DataFrame(d)] for a dict [d]: the arrays must agree in length,
    scalars are repeated to that length, and a dict of scalars alone is
    rejected.  The frame gets the default range index. *)
Definition DataFrame_of_dict (d : pydict) : outcome DataFrame :=
  match d with
  | [] => Return (mkDataFrame [] (RangeIndex 0))
  | _ :: _ =>
      match array_lengths d with
      | [] => Raise (Exn ValueError "If using all scalar values, you must pass an index")
      | n :: ns =>
          if all_equal n ns
          then Return (mkDataFrame
                         (map (fun kv => (fst kv,
                                          match snd kv with
                                          | Array cs => cs
                                          | Scalar c => replicate n c
                                          end)) d)
                         (RangeIndex n))
          else Raise (Exn ValueError "All arrays must be of the same length")
      end
  end.

Definition is_int64 (c : cell) : bool :=
  match c with
  | CInt z => (-9223372036854775808 <=? z) && (z <=? 9223372036854775807)
  | CStr _ => false
  end.
Definition is_str (c : cell) : bool :=
  match c with CStr _ => true | CInt _ => false end.

Definition is_uint64 (c : cell) : bool :=
  match c with
  | CInt z => (0 <=? z) && (z <=? 18446744073709551615)
  | CStr _ => false
  end.

(** A pandas column converts to an Arrow array when its values are all
    signed 64-bit integers, or all unsigned 64-bit integers, or all
    strings. *)
Definition arrow_convertible (cs : list cell) : bool :=
  forallb is_int64 cs || forallb is_uint64 cs || forallb is_str cs.

(** [df.columns.is_unique]. *)
Definition unique_names (cs : columns) : bool :=
  bool_decide (NoDup (column_names cs)).

Definition index_column_name : string := "__index_level_0__".

(** [pa.Table.from_pandas(df)] with the default [preserve_index=None]: a
    frame with two columns of one name is refused; a range index is kept as
    metadata only, any other index is stored as one more column, after the
    data columns, and named in the metadata. *)
Definition Table_from_pandas (df : DataFrame) : outcome Table :=
  if negb (unique_names (dcols df))
  then Raise (Exn ValueError "Duplicate column names found")
  else
  if forallb (fun kv => arrow_convertible (snd kv)) (dcols df)
  then match dindex df with
       | RangeIndex _ => Return (mkTable (dcols df) None)
       | LabelIndex ls =>
           if arrow_convertible ls
           then Return (mkTable (dcols df ++ [(index_column_name, ls)])
                                (Some index_column_name))
           else Raise (Exn ArrowTypeError "cannot convert the index")
       end
  else Raise (Exn ArrowTypeError "cannot convert a column of mixed values").

(** [table.to_pandas()]: the column that the metadata names as the index
    becomes the index again; without metadata the frame gets the default
    range index. *)
Definition Table_to_pandas (t : Table) : DataFrame :=
  match tindex t with
  | None => mkDataFrame (tcols t) (RangeIndex (num_rows t))
  | Some k =>
      match assoc k (tcols t) with
      | Some ls => mkDataFrame (remove_column k (tcols t)) (LabelIndex ls)
      | None => mkDataFrame (tcols t) (RangeIndex (num_rows t))
      end
  end.

(** [df.head()]: the first five rows. *)
Definition head_index (i : Index) : Index :=
  match i with
  | RangeIndex n => RangeIndex (Nat.min 5 n)
  | LabelIndex ls => LabelIndex (take 5 ls)
  end.
Definition DataFrame_head (df : DataFrame) : DataFrame :=
  mkDataFrame (map (fun kv => (fst kv, take 5 (snd kv))) (dcols df))
              (head_index (dindex df)).

(** *** Query expressions *)

(** The fragment of the pandas query grammar that the tools document:
    comparisons between columns and literals, joined by [and] and [or]. *)
Inductive cmpop := OpLt | OpLe | OpGt | OpGe | OpEq | OpNe.

Inductive operand :=
  | Col (name : string)
  | IntLit (z : Z)
  | StrLit (s : string).

Inductive expr :=
  | Cmp (op : cmpop) (a b : operand)
  | And (l r : expr)
  | Or (l r : expr).

(** Comparison of two values: integers by value, strings by code point
    order; across the two types only equality is defined. *)
Definition cmp_cell (op : cmpop) (x y : cell) : option bool :=
  match x, y with
  | CInt a, CInt b =>
      Some match op with
           | OpLt => a <? b | OpLe => a <=? b
           | OpGt => b <? a | OpGe => b <=? a
           | OpEq => a =? b | OpNe => negb (a =? b)
           end
  | CStr a, CStr b =>
      Some match op with
           | OpLt => String.ltb a b | OpLe => String.leb a b
           | OpGt => String.ltb b a | OpGe => String.leb b a
           | OpEq => String.eqb a b | OpNe => negb (String.eqb a b)
           end
  | _, _ =>
      match op with
      | OpEq => Some false
      | OpNe => Some true
      | _ => None
      end
  end.

(** Values while a query is evaluated over whole columns. *)
Inductive vec :=
  | VScalar (c : cell)
  | VColumn (cs : list cell).
Inductive mask :=
  | MScalar (b : bool)
  | MVector (bs : list bool).

Definition eval_operand (cs : columns) (o : operand) : outcome vec :=
  match o with
  | Col k =>
      match assoc k cs with
      | Some vs => Return (VColumn vs)
      | None => Raise (Exn UndefinedVariableError k)
      end
  | IntLit z => Return (VScalar (CInt z))
  | StrLit s => Return (VScalar (CStr s))
  end.

(** All comparisons of a column must be defined. *)
Fixpoint sequence_option {A} (l : list (option A)) : option (list A) :=
  match l with
  | [] => Some []
  | None :: _ => None
  | Some x :: l' =>
      match sequence_option l' with
      | Some xs => Some (x :: xs)
      | None => None
      end
  end.

Definition eval_cmp (op : cmpop) (x y : vec) : outcome mask :=
  let invalid := Raise (Exn TypeError "invalid comparison") in
  match x, y with
  | VScalar a, VScalar b =>
      match cmp_cell op a b with
      | Some r => Return (MScalar r)
      | None => invalid
      end
  | VColumn xs, VScalar b =>
      match sequence_option (map (fun a => cmp_cell op a b) xs) with
      | Some rs => Return (MVector rs)
      | None => invalid
      end
  | VScalar a, VColumn ys =>
      match sequence_option (map (fun b => cmp_cell op a b) ys) with
      | Some rs => Return (MVector rs)
      | None => invalid
      end
  | VColumn xs, VColumn ys =>
      match sequence_option (zip_with (cmp_cell op) xs ys) with
      | Some rs => Return (MVector rs)
      | None => invalid
      end
  end.

Definition mask_binop (f : bool -> bool -> bool) (x y : mask) : mask :=
  match x, y with
  | MScalar a, MScalar b => MScalar (f a b)
  | MVector xs, MScalar b => MVector (map (fun a => f a b) xs)
  | MScalar a, MVector ys => MVector (map (f a) ys)
  | MVector xs, MVector ys => MVector (zip_with f xs ys)
  end.

Fixpoint eval_expr (cs : columns) (e : expr) : outcome mask :=
  match e with
  | Cmp op a b =>
      match eval_operand cs a with
      | Raise x => Raise x
      | Return va =>
          match eval_operand cs b with
          | Raise x => Raise x
          | Return vb => eval_cmp op va vb
          end
      end
  | And l r =>
      match eval_expr cs l with
      | Raise x => Raise x
      | Return ml =>
          match eval_expr cs r with
          | Raise x => Raise x
          | Return mr => Return (mask_binop andb ml mr)
          end
      end
  | Or l r =>
      match eval_expr cs l with
      | Raise x => Raise x
      | Return ml =>
          match eval_expr cs r with
          | Raise x => Raise x
          | Return mr => Return (mask_binop orb ml mr)
          end
      end
  end.

(** [mask.nonzero()]: the positions at which a boolean vector is true. *)
Fixpoint nonzero_from (i : nat) (bs : list bool) : list nat :=
  match bs with
  | [] => []
  | b :: bs' => if b then i :: nonzero_from (S i) bs' else nonzero_from (S i) bs'
  end.
Definition nonzero (bs : list bool) : list nat := nonzero_from 0 bs.

(** [array.take(positions)]. *)
Definition take_cells (ps : list nat) (cs : list cell) : list cell :=
  omap (fun p => cs !! p) ps.

(** [df.loc[mask]] as pandas 1.x and 2.x select rows: every column and the
    index are taken at the positions where the mask holds; the labels of the
    rows kept become an explicit index, also when the frame had a range
    index. *)
Definition DataFrame_loc (df : DataFrame) (bs : list bool) : DataFrame :=
  let ps := nonzero bs in
  mkDataFrame (map (fun kv => (fst kv, take_cells ps (snd kv))) (dcols df))
              (LabelIndex (take_cells ps (index_labels (dindex df)))).


(** The evaluation of a query of the fragment, for a reading [parse_query]
    of strings as expressions ([None]: a syntax error) and a selection
    [loc] of rows by a mask.  This is not all of [DataFrame.query]: names
    that are no columns ([index], [@]-variables of the caller), arithmetic,
    calls and the other forms that pandas evaluates are outside the
    fragment. *)
Definition DataFrame_query (loc : DataFrame -> list bool -> DataFrame)
    (parse_query : string -> option expr) (df : DataFrame) (s : string) :
    outcome DataFrame :=
  match parse_query s with
  | None => Raise (Exn SyntaxError s)
  | Some e =>
      match eval_expr (dcols df) e with
      | Raise x => Raise x
      | Return (MScalar _) => Raise (Exn KeyError "boolean label")
      | Return (MVector bs) => Return (loc df bs)
      end
  end.

(** The calls that [filter_arrow_table_by_expr] makes into pandas and
    pyarrow: [pd.DataFrame(d)], [pa.Table.from_pandas(df)],
    [table.to_pandas()] and [df.query(s)].  The conversions may raise; the
    query, which evaluates a string in the caller's scope, may besides
    change the world.  What it raises is an exception of the model: a query
    that ends the interpreter through a call it makes is left out, as every
    exception outside [Exception] is. *)
Record Pandas := mkPandas {
  pd_DataFrame : pydict -> outcome DataFrame;
  pa_from_pandas : DataFrame -> outcome Table;
  pa_to_pandas : Table -> outcome DataFrame;
  df_query : DataFrame -> string -> World -> World * outcome DataFrame
}.

Section Server.

(** Which calls to the outside world fail. *)
Variable fault : oracle.

(** What the delimited text written for a table holds, as a reader will
    find it: the reader infers the types anew (a column of digit strings
    comes back as integers), and the text of a table without columns is
    empty, which is no delimited file. *)
Variable csv_view : Table -> file.

(** What a write of delimited text that failed leaves at the path: nothing
    new when the file could not be opened, and otherwise the text written
    until the failure, as a reader will find it. *)
Variable csv_failed : Table -> string -> World -> option file.

(** pandas and pyarrow, as [filter_arrow_table_by_expr] calls them. *)
Variable lib : Pandas.

(** *** Library calls with effects *)

Definition set_files (fs : gmap string file) (w : World) : World :=
  mkWorld (stdout w) fs (dirs w) (figures w).
Definition set_dirs (ds : gset string) (w : World) : World :=
  mkWorld (stdout w) (files w) ds (figures w).
Definition set_figures (gs : list Figure) (w : World) : World :=
  mkWorld (stdout w) (files w) (dirs w) gs.

(** A call to the outside world: it fails when the oracle says so, and
    otherwise runs [k]. *)
Definition external {A} (c : call) (k : Py A) : Py A :=
  fun w =>
    match fault c w with
    | Some e => (w, Raise e)
    | None => k w
    end.

(** [pacsv.read_csv(path)]: a table read from delimited text carries no
    pandas metadata. *)
Definition pacsv_read_csv (path : string) : Py Table :=
  external (ReadCsv path) (fun w =>
    match files w !! path with
    | Some (DelimitedFile t) => (w, Return t)
    | Some _ => (w, Raise (Exn ArrowInvalid "CSV parse error"))
    | None => (w, Raise (Exn FileNotFoundError path))
    end).

(** [papq.write_table(table, path)]: when the write fails, the library
    removes whatever is at the path, if it can, and raises again.  (What a
    failed write leaves at a path that cannot be removed is not modelled:
    nothing below depends on the files after a failed write.) *)
Definition papq_write_table (t : Table) (path : string) : Py unit :=
  fun w =>
    match fault (WriteParquet path) w with
    | Some e =>
        (match fault (Remove path) w with
         | Some _ => w
         | None => set_files (delete path (files w)) w
         end, Raise e)
    | None => (set_files (<[path := ParquetFile t]> (files w)) w, Return tt)
    end.

(** [pacsv.write_csv(table, path)]: the file holds the text of the table;
    a write that fails may have opened the file and written a part. *)
Definition pacsv_write_csv (t : Table) (path : string) : Py unit :=
  fun w =>
    match fault (WriteCsv path) w with
    | Some e =>
        (match csv_failed t path w with
         | Some f => set_files (<[path := f]> (files w)) w
         | None => w
         end, Raise e)
    | None => (set_files (<[path := csv_view t]> (files w)) w, Return tt)
    end.

Definition blank_figure : Figure := mkFigure [] "" "" "" false false.

(** The current figure is the one opened last; pyplot opens one when a
    drawing call finds none. *)
Definition on_current_figure (f : Figure -> Figure) : Py unit :=
  fun w =>
    match figures w with
    | [] => (set_figures [f blank_figure] w, Return tt)
    | g :: gs => (set_figures (f g :: gs) w, Return tt)
    end.

(** [plt.figure(...)]: a new figure is registered and becomes current. *)
Definition plt_figure : Py unit :=
  fun w => (set_figures (blank_figure :: figures w) w, Return tt).

Definition plt_bar (keys : list string) (values : list entry) : Py unit :=
  external PltBar (on_current_figure (fun g =>
    mkFigure (zip keys values) (fig_title g) (fig_xlabel g) (fig_ylabel g)
             (fig_grid g) (fig_tight g))).
Definition plt_title (s : string) : Py unit :=
  on_current_figure (fun g =>
    mkFigure (fig_bars g) s (fig_xlabel g) (fig_ylabel g) (fig_grid g) (fig_tight g)).
Definition plt_xlabel (s : string) : Py unit :=
  on_current_figure (fun g =>
    mkFigure (fig_bars g) (fig_title g) s (fig_ylabel g) (fig_grid g) (fig_tight g)).
Definition plt_ylabel (s : string) : Py unit :=
  on_current_figure (fun g =>
    mkFigure (fig_bars g) (fig_title g) (fig_xlabel g) s (fig_grid g) (fig_tight g)).
Definition plt_grid : Py unit :=
  on_current_figure (fun g =>
    mkFigure (fig_bars g) (fig_title g) (fig_xlabel g) (fig_ylabel g) true (fig_tight g)).
Definition plt_tight_layout : Py unit :=
  on_current_figure (fun g =>
    mkFigure (fig_bars g) (fig_title g) (fig_xlabel g) (fig_ylabel g) (fig_grid g) true).

(** [plt.savefig(path, format='png')]. *)
Definition plt_savefig (path : string) : Py unit :=
  external (Savefig path) (fun w =>
    let g := match figures w with [] => blank_figure | g :: _ => g end in
    (set_files (<[path := PngFile (fig_bars g) (fig_title g) (fig_xlabel g) (fig_ylabel g)]>
                  (files w)) w,
     Return tt)).

(** [os.fspath(p)]: a path argument that is [None] is a type error. *)
Definition os_fspath (p : option string) : Py string :=
  match p with
  | Some s => mret s
  | None => raise TypeError "expected str, bytes or os.PathLike object, not NoneType"
  end.

(** [plt.close()]: the current figure leaves the registry. *)
Definition plt_close : Py unit :=
  fun w => (set_figures (tail (figures w)) w, Return tt).

(** [os.path.dirname(p)] for an argument that may be [None]. *)
Definition os_path_dirname (p : option string) : Py string :=
  s ← os_fspath p; mret (dirname s).

Definition os_path_exists (p : string) : Py bool :=
  fun w => (w, Return (bool_decide (p ∈ dirs w) || bool_decide (is_Some (files w !! p)))).

(** The directories on the way to [s], [s] included. *)
Fixpoint dir_prefixes (acc s : string) : list string :=
  match s with
  | EmptyString => [acc]
  | String a s' =>
      (if Ascii.eqb a "/" && negb (String.eqb acc "") then [acc] else [])
        ++ dir_prefixes (acc +:+ String a EmptyString) s'
  end.

(** The parents of a path, the nearest first. *)
Definition ancestors (name : string) : list string :=
  tail (rev (dir_prefixes "" name)).

(** [os.mkdir(p)]: fails when something is at the path already, and
    whenever the oracle says so (a parent that is missing, permissions). *)
Definition os_mkdir (p : string) : Py unit :=
  external (Mkdir p) (fun w =>
    if bool_decide (p ∈ dirs w) || bool_decide (is_Some (files w !! p))
    then (w, Raise (Exn FileExistsError p))
    else (set_dirs ({[ p ]} ∪ dirs w) w, Return tt)).

(** [try: m except FileExistsError: pass]. *)
Definition except_FileExistsError (m : Py unit) : Py unit :=
  try_except m (fun e =>
    if bool_decide (exn_cls e = FileExistsError) then mret tt else lift (Raise e)).

(** [os.makedirs(name)], for a path without empty or dot components: when
    the parent does not exist it is made first, in the same way, and then
    the directory itself.  A failure on the way leaves behind what was made
    before it. *)
Fixpoint makedirs_from (heads : list string) (name : string) : Py unit :=
  (match heads with
   | [] => mret tt
   | head :: heads' =>
       present ← os_path_exists head;
       if negb present
       then except_FileExistsError (makedirs_from heads' head)
       else mret tt
   end) ;;
  os_mkdir name.
Definition os_makedirs (name : string) : Py unit :=
  makedirs_from (ancestors name) name.

(** Attribute access [v.name] for the two attributes the program reads.  A
    table has both; a frame answers with the column of that name, if it has
    one; nothing else has them. *)
Definition getattr (v : pyvalue) (name : string) : Py piece :=
  match v with
  | PyTable t =>
      if String.eqb name "num_rows" then mret (ShowInt (Z.of_nat (num_rows t)))
      else if String.eqb name "num_columns" then mret (ShowInt (Z.of_nat (num_columns t)))
      else raise AttributeError name
  | PyDataFrame df =>
      match assoc name (dcols df) with
      | Some cs => mret (ShowCells cs)
      | None => raise AttributeError name
      end
  | _ => raise AttributeError name
  end.

(** [v.to_pandas()]: only a table has the method. *)
Definition to_pandas (v : pyvalue) : Py DataFrame :=
  match v with
  | PyTable t => lift (pa_to_pandas lib t)
  | _ => raise AttributeError "to_pandas"
  end.

(** [pa.Table.from_pandas(pd.DataFrame(d))]. *)
Definition Table_of_dict (d : pydict) : outcome Table :=
  match DataFrame_of_dict d with
  | Return df => Table_from_pandas df
  | Raise e => Raise e
  end.

Definition as_value (r : outcome Table) : Py pyvalue :=
  match r with
  | Return t => mret (PyTable t)
  | Raise e => lift (Raise e)
  end.

(** ** The tools *)

(** [sys.get_int_max_str_digits()], at its default. *)
Definition int_max_str_digits : Z := 4300.

(** The decimal text of an integer inside an f-string: the interpreter
    refuses to render more than [int_max_str_digits] digits. *)
Definition str_int (z : Z) : Py piece :=
  if Z.abs z <? 10 ^ int_max_str_digits
  then mret (ShowInt z)
  else raise ValueError "Exceeds the limit (4300 digits) for integer string conversion".

(** [def add(a: int, b: int) -> int]: Python integers are unbounded; the
    debug line renders both before the sum is returned. *)
Definition add (a b : Z) : Py Z :=
  sa ← str_int a;
  sb ← str_int b;
  print [Lit "[debug-server] add("; sa; Lit ", "; sb; Lit ")"] ;;
  mret (a + b).

(** The default Parquet path of [read_csv_with_arrow]:
    [file_path.rsplit('.', 1)[0] + '.parquet']. *)
Definition default_parquet_path (file_path : string) : string :=
  rsplit1_head "." file_path +:+ ".parquet".

(** [def read_csv_with_arrow(file_path, display_data=True, to_parquet=False,
    parquet_path=None)].  The value returned is the table, or [None]. *)
Definition read_csv_with_arrow (file_path : string) (display_data to_parquet : bool)
    (parquet_path : option string) : Py pyvalue :=
  try_except
    (table ← pacsv_read_csv file_path;
     (if display_data
      then print [Lit "CSV Data (First 5 rows):"] ;;
           print [ShowFrame (DataFrame_head (Table_to_pandas table))]
      else mret tt) ;;
     (if to_parquet
      then let parquet_path :=
             match parquet_path with
             | None => default_parquet_path file_path
             | Some p => p
             end in
           papq_write_table table parquet_path ;;
           print [Lit "CSV data converted and saved to Parquet: "; ShowStr parquet_path]
      else mret tt) ;;
     mret (PyTable table))
    (fun e =>
       if is_ArrowInvalid e
       then print [Lit "Error reading CSV file: "; ShowExn e] ;; mret PyNone
       else print [Lit "An unexpected error occurred: "; ShowExn e] ;; mret PyNone).

(** A [try] block whose first statements rebind a local variable that the
    handler reads: the handler sees the value the variable holds when the
    exception is raised. *)
Definition try_except_rebinding {V A} (v0 : V) (rebind : Py V) (rest : V -> Py A)
    (handler : V -> exn -> Py A) : Py A :=
  fun w =>
    match rebind w with
    | (w1, Raise e) => handler v0 e w1
    | (w1, Return v1) => try_except (rest v1) (handler v1) w1
    end.

(** [pa.Table.from_pandas(pd.DataFrame(d))], through the library. *)
Definition from_pandas_DataFrame (d : pydict) : outcome Table :=
  match pd_DataFrame lib d with
  | Return df => pa_from_pandas lib df
  | Raise e => Raise e
  end.

(** [def filter_arrow_table_by_expr(table: Any, filter_expr: str)]. *)
Definition filter_arrow_table_by_expr (table : pyvalue) (filter_expr : string) : Py pyvalue :=
  try_except_rebinding table
    (match table with
     | PyDict d =>
         print [Lit "Received dict, converting to pyarrow.Table..."] ;;
         as_value (from_pandas_DataFrame d)
     | PyDataFrame df => as_value (pa_from_pandas lib df)
     | _ => mret table
     end)
    (fun table =>
       df ← to_pandas table;
       filtered_df ← df_query lib df filter_expr;
       as_value (pa_from_pandas lib filtered_df))
    (fun table e =>
       print [Lit "Error in filtering with expression '"; ShowStr filter_expr;
              Lit "': "; ShowExn e] ;;
       mret table).

(** [def plot_dict_and_save(data, title="Dict Plot", xlabel="Keys",
    ylabel="Values", save_path=None)]. *)
Definition plot_dict_and_save (data : pyvalue) (title xlabel ylabel : string)
    (save_path : option string) : Py unit :=
  match data with
  | PyDict d =>
      let keys := map fst d in
      let values := map snd d in
      plt_figure ;;
      plt_bar keys values ;;
      plt_title title ;;
      plt_xlabel xlabel ;;
      plt_ylabel ylabel ;;
      plt_grid ;;
      plt_tight_layout ;;
      dir_name ← os_path_dirname save_path;
      (if negb (String.eqb dir_name "")
       then present ← os_path_exists dir_name;
            if negb present then os_makedirs dir_name else mret tt
       else mret tt) ;;
      (path ← os_fspath save_path; plt_savefig path) ;;
      plt_close ;;
      print [Lit "saved image as: "; ShowStr (default "None" save_path)]
  | _ => raise ValueError "input data must be of type dict"
  end.

(** [def write_table_to_csv(table: Any, output_path: str) -> bool]. *)
Definition write_table_to_csv (table : pyvalue) (output_path : string) : Py bool :=
  rows ← getattr table "num_rows";
  cols ← getattr table "num_columns";
  print [Lit "Read table with "; rows; Lit " rows and "; cols; Lit " columns."] ;;
  try_except
    (table ← match table with
             | PyDict d => as_value (Table_of_dict d)
             | PyDataFrame df => as_value (Table_from_pandas df)
             | _ => mret table
             end;
     match table with
     | PyTable t =>
         pacsv_write_csv t output_path ;;
         print [Lit "Table successfully written to CSV: "; ShowStr output_path] ;;
         mret true
     | _ => raise TypeError "Provided data is not a valid pyarrow.Table"
     end)
    (fun e =>
       print [Lit "Failed to write table to CSV: "; ShowExn e] ;;
       mret false).

End Server.

(** ** A parser for the documented fragment of the query grammar *)

(** Used where a concrete reading of strings is needed: identifiers, integer and
    quoted string literals, the six comparison operators, [and]/[&],
    [or]/[|] and parentheses. *)
Inductive token :=
  | TIdent (s : string)
  | TInt (z : Z)
  | TStr (s : string)
  | TOp (op : cmpop)
  | TAnd
  | TOr
  | TLParen
  | TRParen.

Definition double_quote : ascii := ascii_of_nat 34.

Definition is_digit (c : ascii) : bool :=
  let n := nat_of_ascii c in (48 <=? n)%nat && (n <=? 57)%nat.
Definition is_ident_start (c : ascii) : bool :=
  let n := nat_of_ascii c in
  ((65 <=? n)%nat && (n <=? 90)%nat) || ((97 <=? n)%nat && (n <=? 122)%nat)
  || (n =? 95)%nat.
Definition is_ident_char (c : ascii) : bool := is_ident_start c || is_digit c.

Fixpoint span (p : ascii -> bool) (l : list ascii) : list ascii * list ascii :=
  match l with
  | [] => ([], [])
  | c :: r => if p c then let '(a, b) := span p r in (c :: a, b) else ([], l)
  end.

Definition digits_value (ds : list ascii) : Z :=
  fold_left (fun acc d => 10 * acc + (Z.of_nat (nat_of_ascii d) - 48)) ds 0.

Definition keyword (w : string) : token :=
  if String.eqb w "and" then TAnd
  else if String.eqb w "or" then TOr
  else TIdent w.

Fixpoint lex (fuel : nat) (l : list ascii) : option (list token) :=
  match fuel with
  | O => match l with [] => Some [] | _ => None end
  | S fuel' =>
      let emit t rest := cons t <$> lex fuel' rest in
      match l with
      | [] => Some []
      | " "%char :: r => lex fuel' r
      | "("%char :: r => emit TLParen r
      | ")"%char :: r => emit TRParen r
      | "&"%char :: r => emit TAnd r
      | "|"%char :: r => emit TOr r
      | "<"%char :: "="%char :: r => emit (TOp OpLe) r
      | ">"%char :: "="%char :: r => emit (TOp OpGe) r
      | "="%char :: "="%char :: r => emit (TOp OpEq) r
      | "!"%char :: "="%char :: r => emit (TOp OpNe) r
      | "<"%char :: r => emit (TOp OpLt) r
      | ">"%char :: r => emit (TOp OpGt) r
      | "-"%char :: r =>
          let '(ds, rest) := span is_digit r in
          match ds with
          | [] => None
          | _ => emit (TInt (- digits_value ds)) rest
          end
      | c :: r =>
          if is_digit c then
            let '(ds, rest) := span is_digit l in emit (TInt (digits_value ds)) rest
          else if is_ident_start c then
            let '(cs, rest) := span is_ident_char l in
            emit (keyword (string_of_list_ascii cs)) rest
          else if Ascii.eqb c "'" || Ascii.eqb c double_quote then
            let '(cs, rest) := span (fun x => negb (Ascii.eqb x c)) r in
            match rest with
            | _ :: rest' => emit (TStr (string_of_list_ascii cs)) rest'
            | [] => None
            end
          else None
      end
  end.

Definition operand_of_token (t : token) : option operand :=
  match t with
  | TIdent s => Some (Col s)
  | TInt z => Some (IntLit z)
  | TStr s => Some (StrLit s)
  | _ => None
  end.

(** Levels: 0 a disjunction, 1 a conjunction, otherwise a comparison or a
    parenthesised expression. *)
Fixpoint parse_level (fuel level : nat) (ts : list token) : option (expr * list token) :=
  match fuel with
  | O => None
  | S fuel' =>
      match level with
      | O =>
          match parse_level fuel' 1 ts with
          | Some (l, TOr :: rest) =>
              match parse_level fuel' 0 rest with
              | Some (r, rest') => Some (Or l r, rest')
              | None => None
              end
          | other => other
          end
      | S O =>
          match parse_level fuel' 2 ts with
          | Some (l, TAnd :: rest) =>
              match parse_level fuel' 1 rest with
              | Some (r, rest') => Some (And l r, rest')
              | None => None
              end
          | other => other
          end
      | _ =>
          match ts with
          | TLParen :: rest =>
              match parse_level fuel' 0 rest with
              | Some (e, TRParen :: rest') => Some (e, rest')
              | _ => None
              end
          | a :: TOp op :: b :: rest =>
              match operand_of_token a, operand_of_token b with
              | Some x, Some y => Some (Cmp op x y, rest)
              | _, _ => None
              end
          | _ => None
          end
      end
  end.

Definition pandas_parse (s : string) : option expr :=
  match lex (S (String.length s)) (list_ascii_of_string s) with
  | Some ts =>
      match parse_level (3 * S (length ts)) 0 ts with
      | Some (e, []) => Some e
      | _ => None
      end
  | None => None
  end.

(** An environment in which no call to the outside world fails. *)
Definition no_fault : oracle := fun _ _ => None.

Definition empty_world : World := mkWorld [] ∅ ∅ [].

(** An environment in which Parquet files cannot be written. *)
Definition parquet_unwritable : oracle :=
  fun c _ =>
    match c with
    | WriteParquet _ => Some (Exn OSError "Permission denied")
    | _ => None
    end.

(** ** Libraries to run the tools with *)

(** Queries of the fragment, read by [pandas_parse]: with the selection of
    pandas 1.x and 2.x, and with the selection that keeps a range index
    for no rows, as pandas 3 does. *)
Definition query_pandas2 (df : DataFrame) (s : string) : Py DataFrame :=
  lift (DataFrame_query DataFrame_loc pandas_parse df s).

(** The conversions as modelled above, around a query [q]. *)
Definition model_library (q : DataFrame -> string -> Py DataFrame) : Pandas :=
  mkPandas DataFrame_of_dict Table_from_pandas
           (fun t => Return (Table_to_pandas t)) q.

(** A reader that finds the columns as they were written. *)
Definition csv_as_written (t : Table) : file :=
  DelimitedFile (mkTable (tcols t) None).

(** Failed writes that never got to open the file. *)
Definition csv_unopened : Table -> string -> World -> option file :=
  fun _ _ _ => None.

(** ** Notions used in the statements *)

(** *** Rows *)

(** A row is what a record of the table looks like: the cell of every
    column at one position. *)
Definition row := list (string * cell).

Definition row_at (cs : columns) (i : nat) : row :=
  map (fun kv => (fst kv, nth i (snd kv) (CInt 0))) cs.

Definition rows (cs : columns) : list row :=
  map (row_at cs) (seq 0 (height cs)).





(** *** Well-formed tables *)



(** *** The world between the statements of [read_csv_with_arrow] *)

Definition printed (ls : list (list piece)) (w : World) : World :=
  mkWorld (stdout w ++ ls) (files w) (dirs w) (figures w).

(** *** Normalization and evaluation in [filter_arrow_table_by_expr] *)

(** The table that the first statements of the [try] block bind to [table]:
    the table itself, or the table converted from a dict or a frame.
    [None] when the value is of another type or the conversion raises. *)
Definition normalized (lib : Pandas) (v : pyvalue) : option Table :=
  match v with
  | PyTable t => Some t
  | PyDict d =>
      match from_pandas_DataFrame lib d with
      | Return t => Some t
      | Raise _ => None
      end
  | PyDataFrame df =>
      match pa_from_pandas lib df with
      | Return t => Some t
      | Raise _ => None
      end
  | _ => None
  end.

(** The value of the variable [table] when the handler runs. *)
Definition rebound (lib : Pandas) (v : pyvalue) : pyvalue :=
  match normalized lib v with
  | Some t => PyTable t
  | None => v
  end.

(** The world in which the rest of the [try] block runs: a dict has been
    announced on standard output. *)
Definition rebind_world (v : pyvalue) (w : World) : World :=
  match v with
  | PyDict _ => printed [[Lit "Received dict, converting to pyarrow.Table..."]] w
  | _ => w
  end.

(** The rest of the [try] block on a table: to a frame, the query, and back
    to a table. *)
Definition evaluate (lib : Pandas) (s : string) (t : Table) : Py Table :=
  df ← lift (pa_to_pandas lib t);
  filtered_df ← df_query lib df s;
  lift (pa_from_pandas lib filtered_df).

(** The evaluation of a filter expression on a value fails: the value has
    no table to evaluate on, or the evaluation on its table raises. *)
Definition evaluation_fails (lib : Pandas) (v : pyvalue) (s : string) (w : World) : bool :=
  match normalized lib v with
  | Some t =>
      match snd (evaluate lib s t (rebind_world v w)) with
      | Raise _ => true
      | Return _ => false
      end
  | None => true
  end.

(** *** What a query returns *)





(** What the display of the first rows prints. *)
Definition display_lines (display_data : bool) (t : Table) : list (list piece) :=
  if display_data
  then [[Lit "CSV Data (First 5 rows):"];
        [ShowFrame (DataFrame_head (Table_to_pandas t))]]
  else [].

(** The path the Parquet file is written to. *)
Definition parquet_target (file_path : string) (parquet_path : option string) : string :=
  match parquet_path with
  | None => default_parquet_path file_path
  | Some p => p
  end.

(** The last line on standard output reports the exception [e], in the
    words of the handler that caught it. *)
Definition error_logged (e : exn) (w : World) : Prop :=
  last (stdout w)
  = Some [Lit (if is_ArrowInvalid e
               then "Error reading CSV file: "
               else "An unexpected error occurred: ");
          ShowExn e].

(** *** The extension of a path, as [os.path.splitext] delimits it *)

(** The part of [s] after the last occurrence of [c], if [c] occurs. *)
Fixpoint after_last (c : ascii) (s : string) : option string :=
  match s with
  | EmptyString => None
  | String a s' =>
      match after_last c s' with
      | Some t => Some t
      | None => if Ascii.eqb a c then Some s' else None
      end
  end.

Fixpoint leading_dots (s : string) : string * string :=
  match s with
  | String a s' =>
      if Ascii.eqb a "."
      then let '(ds, r) := leading_dots s' in (String a ds, r)
      else (EmptyString, s)
  | EmptyString => (EmptyString, EmptyString)
  end.

(** The extension starts at the last dot of the last component, leading
    dots of the component apart; the root is the path without it. *)
Definition splitext_root (p : string) : string :=
  let head := match before_last "/" p with Some h => h +:+ "/" | None => "" end in
  let tail := match after_last "/" p with Some t => t | None => p end in
  let '(ds, name) := leading_dots tail in
  match before_last "." name with
  | Some stem => head +:+ ds +:+ stem
  | None => p
  end.

(** The path with its extension replaced by [.parquet]; a path without an
    extension gets [.parquet] appended. *)
Definition with_parquet_extension (p : string) : string :=
  splitext_root p +:+ ".parquet".

(** ** Sample data *)

Definition sample_table : Table :=
  mkTable [("a", [CInt 1; CInt 2]); ("b", [CStr "x"; CStr "y"])] None.

Definition sample_mapping : pyvalue :=
  PyDict [("a", Array [CInt 1; CInt 2]); ("b", Array [CInt 3; CInt 4])].

Definition sample_chart : pyvalue :=
  PyDict [("x", Scalar (CInt 1)); ("y", Scalar (CInt 2))].

(** A world whose only file is [sample_table] as delimited text at [path]. *)
Definition csv_world (path : string) : World :=
  mkWorld [] {[ path := DelimitedFile sample_table ]} ∅ [].

(** ** [get_secret_word] *)

Section Random.

(** [random.Random._randbelow(n)]: the draw of the process-wide generator
    below [n], as the environment supplies it at the time of the call. *)
Variable randbelow : nat -> World -> nat.

(** [random.choice(seq)] is [seq[randbelow(len(seq))]]. *)
Definition random_choice (seq : list string) : Py string :=
  fun w => (w, Return (nth (randbelow (length seq) w) seq "")).

(** [def get_secret_word() -> str]. *)
Definition get_secret_word : Py string :=
  print [Lit "[debug-server] get_secret_word()"] ;;
  random_choice ["apple"; "banana"; "cherry"].

End Random.

(** A generator that always draws the first element. *)
Definition draws_first : nat -> World -> nat := fun _ _ => O.

(** ** Further notions used in the statements *)

(** [hasattr(v, name)], for the attributes that [getattr] models. *)
Definition has_attr (v : pyvalue) (name : string) : bool :=
  match v with
  | PyTable _ => String.eqb name "num_rows" || String.eqb name "num_columns"
  | PyDataFrame df =>
      match assoc name (dcols df) with
      | Some _ => true
      | None => false
      end
  | _ => false
  end.

(** What [write_table_to_csv] prints before its [try], on a table. *)
Definition read_table_line (t : Table) : list piece :=
  [Lit "Read table with "; ShowInt (Z.of_nat (num_rows t)); Lit " rows and ";
   ShowInt (Z.of_nat (num_columns t)); Lit " columns."].

(** A mapping with two arrays of different lengths. *)
Definition ragged_mapping : pydict :=
  [("a", Array [CInt 1; CInt 2]); ("b", Array [CInt 3])].

(** * Properties *)

(** Run a computation of the monad on the world at hand. *)
Ltac run_py :=
  repeat (progress (unfold mret, mbind, Py_ret, Py_bind, try_except, external,
                      lift, raise, print, as_value in *; cbn in *)).

(** ** [add] *)

Lemma str_int_small (z : Z) (w : World) :
  Z.abs z < 10 ^ int_max_str_digits -> str_int z w = (w, Return (ShowInt z)).
Proof.
  intros H. unfold str_int. apply Z.ltb_lt in H. by rewrite H.
Qed.

Lemma str_int_large (z : Z) (w : World) :
  10 ^ int_max_str_digits <= Z.abs z ->
  exists e, str_int z w = (w, Raise e) /\ exn_cls e = ValueError.
Proof.
  intros H. unfold str_int. apply Z.ltb_ge in H. rewrite H. by eexists.
Qed.

(** C9, counterexample.  The debug line renders both arguments as decimal
    text before the sum is returned; an argument of 4301 digits makes that
    rendering raise [ValueError], and [add] with it. *)
Lemma add_raises_on_long_integer :
  exists e, snd (add (10 ^ 4300) 0 empty_world) = Raise e
            /\ exn_cls e = ValueError.
Proof.
  unfold add. unfold mbind at 1. unfold Py_bind.
  destruct (str_int_large (10 ^ 4300) empty_world) as (e & -> & He).
  - unfold int_max_str_digits. lia.
  - cbn. eauto.
Qed.

(** C9, as amended.  For every pair of integers of at most 4300 decimal
    digits each, negative and zero included, [add] returns exactly their
    sum, in every world. *)
Theorem add_returns_sum (a b : Z) (w : World) :
  Z.abs a < 10 ^ int_max_str_digits ->
  Z.abs b < 10 ^ int_max_str_digits ->
  snd (add a b w) = Return (a + b).
Proof.
  intros Ha Hb. unfold add. unfold mbind, Py_bind.
  rewrite (str_int_small a w Ha). rewrite (str_int_small b w Hb). reflexivity.
Qed.

Lemma add_returns_sum_witness :
  Z.abs (-7) < 10 ^ int_max_str_digits
  /\ Z.abs 0 < 10 ^ int_max_str_digits
  /\ snd (add (-7) 0 empty_world) = Return (-7 + 0).
Proof.
  assert (H1 : Z.abs (-7) < 10 ^ int_max_str_digits) by (vm_compute; reflexivity).
  assert (H2 : Z.abs 0 < 10 ^ int_max_str_digits) by (vm_compute; reflexivity).
  split; [exact H1|]. split; [exact H2|].
  exact (add_returns_sum (-7) 0 empty_world H1 H2).
Defined.

(** ** [write_table_to_csv] *)

(** C1.  Given a column-to-values mapping, whatever its content,
    [write_table_to_csv] raises [AttributeError] to its caller: it neither
    returns [True] nor [False], and it leaves the world untouched. *)
Theorem write_table_to_csv_mapping_raises (fault : oracle) (csv_view : Table -> file)
    (csv_failed : Table -> string -> World -> option file)
    (d : pydict) (output_path : string) (w : World) :
  write_table_to_csv fault csv_view csv_failed (PyDict d) output_path w
  = (w, Raise (Exn AttributeError "num_rows")).
Proof. reflexivity. Qed.

(** ** [plot_dict_and_save] *)

(** C7.  For every value that is not a dict, [plot_dict_and_save] raises
    [ValueError] to its caller and has no effect at all: the world after the
    call is the world before it, so no directory was created and no file was
    written. *)
Theorem plot_dict_and_save_rejects_non_dict (fault : oracle) (data : pyvalue)
    (title xlabel ylabel : string) (save_path : option string) (w : World) :
  isinstance_dict data = false ->
  plot_dict_and_save fault data title xlabel ylabel save_path w
  = (w, Raise (Exn ValueError "input data must be of type dict")).
Proof. by destruct data. Qed.

Lemma plot_dict_and_save_rejects_non_dict_witness :
  let data := PyRecords [[("x", CInt 1)]] in
  let w := csv_world "out/chart.png" in
  isinstance_dict data = false
  /\ plot_dict_and_save no_fault data "Dict Plot" "Keys" "Values"
       (Some "out/dir/chart.png") w
     = (w, Raise (Exn ValueError "input data must be of type dict")).
Proof.
  split; [reflexivity|].
  apply (plot_dict_and_save_rejects_non_dict no_fault (PyRecords [[("x", CInt 1)]])
           "Dict Plot" "Keys" "Values" (Some "out/dir/chart.png")
           (csv_world "out/chart.png")).
  reflexivity.
Defined.

(** What [os.makedirs] does to the world, however it ends: it prints
    nothing, touches no file and no figure, removes no directory, and adds
    directories only among the path and its parents; when it returns, the
    path is a directory. *)
Lemma os_mkdir_effect (fault : oracle) (p : string) (w : World) :
  let r := os_mkdir fault p w in
  stdout (fst r) = stdout w /\ files (fst r) = files w
  /\ figures (fst r) = figures w
  /\ dirs w ⊆ dirs (fst r)
  /\ (forall q, q ∈ dirs (fst r) -> q ∈ dirs w \/ q = p)
  /\ (snd r = Return tt -> p ∈ dirs (fst r)).
Proof.
  cbn zeta. unfold os_mkdir. run_py.
  destruct (fault (Mkdir p) w); run_py; [set_solver|].
  destruct (_ || _); run_py; [set_solver|].
  repeat split; try done; set_solver.
Qed.

Lemma makedirs_from_effect (fault : oracle) (heads : list string) (name : string)
    (w : World) :
  let r := makedirs_from fault heads name w in
  stdout (fst r) = stdout w /\ files (fst r) = files w
  /\ figures (fst r) = figures w
  /\ dirs w ⊆ dirs (fst r)
  /\ (forall q, q ∈ dirs (fst r) -> q ∈ dirs w \/ q ∈ heads \/ q = name)
  /\ (snd r = Return tt -> name ∈ dirs (fst r)).
Proof.
  cbn zeta. revert name w. induction heads as [|head heads IH]; intros name w.
  - cbn [makedirs_from]. unfold mbind, Py_bind, mret, Py_ret.
    pose proof (os_mkdir_effect fault name w) as H. cbn zeta in H.
    destruct H as (? & ? & ? & ? & Hq & ?).
    repeat split; try done. intros q Hin. destruct (Hq q Hin); auto.
  - cbn [makedirs_from]. unfold os_path_exists, except_FileExistsError, try_except.
    unfold mbind, Py_bind, mret, Py_ret.
    destruct (negb _).
    + pose proof (IH head w) as H. cbn zeta in H.
      destruct (makedirs_from fault heads head w) as [w1 [[]|e]]; cbn in H.
      * destruct H as (Ho & Hf & Hg & Hsub & Hq & _).
        pose proof (os_mkdir_effect fault name w1) as H. cbn zeta in H.
        destruct H as (Ho' & Hf' & Hg' & Hsub' & Hq' & Hr').
        repeat split; try congruence; [set_solver| |done].
        intros q Hin. destruct (Hq' q Hin) as [Hin'| ->]; [|auto].
        destruct (Hq q Hin') as [?|[?| ->]]; auto; right; left; set_solver.
      * destruct H as (Ho & Hf & Hg & Hsub & Hq & _).
        assert (Hq2 : forall q, q ∈ dirs w1 ->
                                q ∈ dirs w \/ q ∈ head :: heads \/ q = name).
        { intros q Hin. destruct (Hq q Hin) as [?|[?| ->]]; auto;
            right; left; set_solver. }
        destruct (bool_decide (exn_cls e = FileExistsError)); unfold lift; cbn.
        -- pose proof (os_mkdir_effect fault name w1) as H. cbn zeta in H.
           destruct H as (Ho' & Hf' & Hg' & Hsub' & Hq' & Hr').
           repeat split; try congruence; [set_solver| |done].
           intros q Hin. destruct (Hq' q Hin) as [Hin'| ->]; auto.
        -- repeat split; try done.
    + pose proof (os_mkdir_effect fault name w) as H. cbn zeta in H.
      destruct H as (? & ? & ? & ? & Hq & ?).
      repeat split; try done. intros q Hin. destruct (Hq q Hin); auto.
Qed.

Lemma os_makedirs_effect (fault : oracle) (name : string) (w : World) :
  let r := os_makedirs fault name w in
  stdout (fst r) = stdout w /\ files (fst r) = files w
  /\ figures (fst r) = figures w
  /\ dirs w ⊆ dirs (fst r)
  /\ (forall q, q ∈ dirs (fst r) -> q ∈ dirs w \/ q ∈ ancestors name \/ q = name)
  /\ (snd r = Return tt -> name ∈ dirs (fst r)).
Proof. apply makedirs_from_effect. Qed.

Ltac unfold_plot :=
  unfold plot_dict_and_save, plt_figure, plt_bar, plt_title, plt_xlabel,
    plt_ylabel, plt_grid, plt_tight_layout, os_path_dirname, os_fspath,
    os_path_exists, plt_savefig, plt_close, on_current_figure.

(** Split on how [os.makedirs] ends, with what it did to the world. *)
Ltac makedirs_cases fault :=
  match goal with
  | |- context [os_makedirs fault ?dn ?w0] =>
      let H := fresh "Hmk" in
      pose proof (os_makedirs_effect fault dn w0) as H; cbn zeta in H;
      destruct (os_makedirs fault dn w0) as [? [[]|?]];
      cbn [fst snd] in H;
      destruct H as (Hout & Hfiles & Hfigs & Hsub & Hadd & Hret)
  end.

(** C8, counterexample.  Called on a dict with the default [save_path], the
    tool raises after it has opened its figure, and the figure stays in
    pyplot's registry. *)
Lemma plot_dict_and_save_leaks_figure :
  let r := plot_dict_and_save no_fault sample_chart "Dict Plot" "Keys" "Values"
             None empty_world in
  (exists e, snd r = Raise e) /\ figures (fst r) <> figures empty_world.
Proof. cbn. split; [eauto | discriminate]. Qed.

(** C8, as amended.  The figure that the tool opens is released when the
    tool completes normally.  When the tool raises before opening it (the
    data is not a dict) nothing was acquired and the world is unchanged.
    When the tool raises afterwards, the figure is still registered as
    pyplot's current figure, on top of the figures that were open before. *)
Theorem plot_dict_and_save_figure_lifetime (fault : oracle) (data : pyvalue)
    (title xlabel ylabel : string) (save_path : option string) (w : World) :
  match plot_dict_and_save fault data title xlabel ylabel save_path w with
  | (w', Return _) => figures w' = figures w
  | (w', Raise _) =>
      if isinstance_dict data
      then exists g, figures w' = g :: figures w
      else w' = w
  end.
Proof.
  destruct data; try reflexivity.
  unfold_plot. run_py.
  destruct (fault PltBar _); run_py; [eauto|].
  destruct save_path as [p|]; run_py; [|eauto].
  destruct (negb (String.eqb (dirname p) "")); run_py.
  - destruct (negb _); run_py.
    + makedirs_cases fault; run_py.
      * destruct (fault (Savefig _) _); run_py; rewrite Hfigs; cbn; eauto.
      * rewrite Hfigs. eauto.
    + destruct (fault (Savefig _) _); run_py; eauto.
  - destruct (fault (Savefig _) _); run_py; eauto.
Qed.

(** ** [read_csv_with_arrow] *)

(** Every run of the tool: it returns; directories and figures are as
    before; the value and the files depend on the read and on the write. *)
Lemma read_csv_with_arrow_run (fault : oracle) (file_path : string)
    (display_data to_parquet : bool) (parquet_path : option string) (w : World) :
  exists w' v,
    read_csv_with_arrow fault file_path display_data to_parquet parquet_path w
    = (w', Return v)
    /\ dirs w' = dirs w /\ figures w' = figures w
    /\ match pacsv_read_csv fault file_path w with
       | (_, Raise e) => v = PyNone /\ error_logged e w' /\ files w' = files w
       | (_, Return t) =>
           if to_parquet
           then match fault (WriteParquet (parquet_target file_path parquet_path))
                        (printed (display_lines display_data t) w) with
                | Some e => v = PyNone /\ error_logged e w'
                | None =>
                    v = PyTable t
                    /\ files w'
                       = <[parquet_target file_path parquet_path := ParquetFile t]>
                           (files w)
                end
           else v = PyTable t /\ files w' = files w
       end.
Proof.
  assert (Hlog : forall e out fs ds gs,
             error_logged e
               (mkWorld (out ++ [[Lit (if is_ArrowInvalid e
                                       then "Error reading CSV file: "
                                       else "An unexpected error occurred: ");
                                  ShowExn e]]) fs ds gs)).
  { intros. unfold error_logged. cbn. apply last_snoc. }
  assert (Hcaught : forall e w0,
             exists w1,
               (if is_ArrowInvalid e
                then print [Lit "Error reading CSV file: "; ShowExn e] ;; mret PyNone
                else print [Lit "An unexpected error occurred: "; ShowExn e] ;;
                     mret PyNone) w0 = (w1, Return PyNone)
               /\ error_logged e w1 /\ files w1 = files w0
               /\ dirs w1 = dirs w0 /\ figures w1 = figures w0).
  { intros e w0. specialize (Hlog e (stdout w0) (files w0) (dirs w0) (figures w0)).
    destruct (is_ArrowInvalid e); run_py; eauto 10. }
  unfold read_csv_with_arrow, pacsv_read_csv, papq_write_table, printed,
    display_lines, parquet_target.
  unfold try_except, external. unfold mbind at 1. unfold Py_bind at 1.
  destruct (fault (ReadCsv file_path) w) as [e|].
  { destruct (Hcaught e w) as (w1 & -> & ? & ? & ? & ?). eauto 10. }
  destruct (files w !! file_path) as [[t| | |]|];
    try (match goal with
         | |- context [Exn ?c ?m] =>
             destruct (Hcaught (Exn c m) w) as (w1 & -> & ? & ? & ? & ?);
             by eauto 10
         end).
  destruct display_data, to_parquet; run_py; eauto 10.
  - rewrite <- app_assoc. cbn.
    destruct (fault (WriteParquet _) _) as [e|]; [|run_py; eauto 10].
    match goal with
    | |- context [?h ?w0] =>
        match h with
        | (if is_ArrowInvalid e then _ else _) =>
            destruct (Hcaught e w0) as (w1 & -> & ? & ? & Hd & Hg)
        end
    end.
    eexists _, _. split; [reflexivity|]. rewrite Hd, Hg.
    destruct (fault (Remove _) _); cbn; eauto.
  - rewrite app_nil_r. destruct w as [out fs ds gs]; cbn.
    destruct (fault (WriteParquet _) _) as [e|]; [|run_py; eauto 10].
    match goal with
    | |- context [?h ?w0] =>
        match h with
        | (if is_ArrowInvalid e then _ else _) =>
            destruct (Hcaught e w0) as (w1 & -> & ? & ? & Hd & Hg)
        end
    end.
    eexists _, _. split; [reflexivity|]. rewrite Hd, Hg.
    destruct (fault (Remove _) _); cbn; eauto.
Qed.

(** C5.  [read_csv_with_arrow] never raises: in every world, for every path
    and every combination of options, it returns a value.  When reading the
    delimited file fails, and when the Parquet file was asked for and
    writing it fails, the error is logged and the value is [None];
    otherwise the value is the table that was read. *)
Theorem read_csv_with_arrow_never_raises (fault : oracle) (file_path : string)
    (display_data to_parquet : bool) (parquet_path : option string) (w : World) :
  exists w' v,
    read_csv_with_arrow fault file_path display_data to_parquet parquet_path w
    = (w', Return v) /\
    match pacsv_read_csv fault file_path w with
    | (_, Raise e) => v = PyNone /\ error_logged e w'
    | (_, Return t) =>
        if to_parquet
        then match fault (WriteParquet (parquet_target file_path parquet_path))
                     (printed (display_lines display_data t) w) with
             | Some e => v = PyNone /\ error_logged e w'
             | None => v = PyTable t
             end
        else v = PyTable t
    end.
Proof.
  destruct (read_csv_with_arrow_run fault file_path display_data to_parquet
              parquet_path w) as (w' & v & Hrun & _ & _ & H).
  exists w', v. split; [exact Hrun|].
  destruct (pacsv_read_csv fault file_path w) as [w1 [t|e]]; [|tauto].
  destruct to_parquet; [|tauto].
  destruct (fault (WriteParquet _) _); tauto.
Qed.

(** C10.  When the delimited file is read successfully, the Parquet file is
    asked for, and writing it fails, the tool returns [None]: the table it
    had read is dropped. *)
Theorem read_csv_with_arrow_drops_table_on_write_failure (fault : oracle)
    (file_path : string) (display_data : bool) (parquet_path : option string)
    (w : World) (t : Table) (e : exn) :
  pacsv_read_csv fault file_path w = (w, Return t) ->
  fault (WriteParquet (parquet_target file_path parquet_path))
    (printed (display_lines display_data t) w) = Some e ->
  snd (read_csv_with_arrow fault file_path display_data true parquet_path w)
  = Return PyNone.
Proof.
  intros Hread Hwrite.
  destruct (read_csv_with_arrow_run fault file_path display_data true
              parquet_path w) as (w' & v & Hrun & _ & _ & Hv).
  rewrite Hrun, Hread, Hwrite in *. cbn. by destruct Hv as [-> _].
Qed.

Lemma read_csv_with_arrow_drops_table_on_write_failure_witness :
  let w := csv_world "data/input.csv" in
  pacsv_read_csv parquet_unwritable "data/input.csv" w = (w, Return sample_table)
  /\ parquet_unwritable (WriteParquet (parquet_target "data/input.csv" None))
       (printed (display_lines true sample_table) w)
     = Some (Exn OSError "Permission denied")
  /\ snd (read_csv_with_arrow parquet_unwritable "data/input.csv" true true None w)
     = Return PyNone.
Proof.
  split; [reflexivity|]. split; [reflexivity|].
  apply (read_csv_with_arrow_drops_table_on_write_failure parquet_unwritable
           "data/input.csv" true None (csv_world "data/input.csv") sample_table
           (Exn OSError "Permission denied")); reflexivity.
Defined.

(** *** The default Parquet path *)

Lemma before_last_app_sep (c : ascii) (stem ext : string) :
  before_last c ext = None ->
  before_last c (stem +:+ String c ext) = Some stem.
Proof.
  intros Hext. induction stem as [|a stem IH]; simpl.
  - by rewrite Hext, Ascii.eqb_refl.
  - by rewrite IH.
Qed.

(** Where the name ends in a dot and an extension without further dots, the
    default path replaces that extension. *)
Lemma default_parquet_path_replaces_last_suffix (stem ext : string) :
  before_last "." ext = None ->
  default_parquet_path (stem +:+ String "." ext) = stem +:+ ".parquet".
Proof.
  intros Hext. unfold default_parquet_path, rsplit1_head.
  by rewrite before_last_app_sep.
Qed.

(** Where the path has no dot at all, the suffix is appended. *)
Lemma default_parquet_path_appends (p : string) :
  before_last "." p = None ->
  default_parquet_path p = p +:+ ".parquet".
Proof.
  intros Hp. unfold default_parquet_path, rsplit1_head. by rewrite Hp.
Qed.

(** C6.  The path [./data/input] has no extension, and a dot in a directory
    part.  Asked for the Parquet file without a path for it, the tool
    writes the table to [.parquet] in the working directory; nothing is
    written at the input path with the Parquet extension,
    [./data/input.parquet]. *)
Theorem read_csv_with_arrow_default_path_cut_at_directory_dot :
  let w := csv_world "./data/input" in
  let r := read_csv_with_arrow no_fault "./data/input" false true None w in
  snd r = Return (PyTable sample_table)
  /\ files (fst r) !! ".parquet" = Some (ParquetFile sample_table)
  /\ with_parquet_extension "./data/input" = "./data/input.parquet"
  /\ files (fst r) !! with_parquet_extension "./data/input" = None.
Proof. vm_compute. done. Qed.

(** ** [filter_arrow_table_by_expr] *)

Ltac unfold_filter :=
  unfold filter_arrow_table_by_expr, try_except_rebinding, to_pandas,
    normalized, evaluate, rebind_world, printed;
  unfold from_pandas_DataFrame.

(** What the tool returns once its input is normalized: the table that the
    rest of the [try] block makes, or, when that raises, the normalized
    table. *)
Lemma filter_arrow_table_by_expr_normalized (lib : Pandas) (table : pyvalue)
    (filter_expr : string) (w : World) (t : Table) :
  normalized lib table = Some t ->
  snd (filter_arrow_table_by_expr lib table filter_expr w)
  = match snd (evaluate lib filter_expr t (rebind_world table w)) with
    | Return t' => Return (PyTable t')
    | Raise _ => Return (PyTable t)
    end.
Proof.
  unfold_filter.
  destruct table as [| | | |d| |t0|df]; try done.
  - destruct (pd_DataFrame lib d) as [df|]; cbn; [|discriminate].
    destruct (pa_from_pandas lib df) as [t0|]; cbn; [|discriminate].
    intros [= ->]. run_py.
    destruct (pa_to_pandas lib t) as [df0|]; run_py; [|done].
    destruct (df_query lib df0 filter_expr _) as [w1 [df'|]]; run_py; [|done].
    destruct (pa_from_pandas lib df'); by run_py.
  - intros [= ->]. run_py.
    destruct (pa_to_pandas lib t) as [df0|]; run_py; [|done].
    destruct (df_query lib df0 filter_expr _) as [w1 [df'|]]; run_py; [|done].
    destruct (pa_from_pandas lib df'); by run_py.
  - destruct (pa_from_pandas lib df) as [t0|]; cbn; [|discriminate].
    intros [= ->]. run_py.
    destruct (pa_to_pandas lib t) as [df0|]; run_py; [|done].
    destruct (df_query lib df0 filter_expr _) as [w1 [df'|]]; run_py; [|done].
    destruct (pa_from_pandas lib df'); by run_py.
Qed.

(** What the tool returns when there is no table to evaluate on: the value
    it was given. *)
Lemma filter_arrow_table_by_expr_not_normalized (lib : Pandas) (table : pyvalue)
    (filter_expr : string) (w : World) :
  normalized lib table = None ->
  snd (filter_arrow_table_by_expr lib table filter_expr w) = Return table.
Proof.
  unfold_filter.
  destruct table as [| | | |d| |t0|df]; try done.
  - destruct (pd_DataFrame lib d) as [df|]; cbn; [|by run_py].
    destruct (pa_from_pandas lib df) as [t0|]; cbn; [discriminate|]. by run_py.
  - destruct (pa_from_pandas lib df) as [t0|]; cbn; [discriminate|]. by run_py.
Qed.

(** C2, counterexample.  A mapping filtered with a malformed expression
    comes back as an Arrow table, not as the mapping that was passed. *)
Lemma filter_arrow_table_by_expr_mapping_not_returned :
  let lib := model_library query_pandas2 in
  let r := snd (filter_arrow_table_by_expr lib sample_mapping "a >" empty_world) in
  evaluation_fails lib sample_mapping "a >" empty_world = true
  /\ r <> Return sample_mapping
  /\ r = Return (PyTable (mkTable [("a", [CInt 1; CInt 2]); ("b", [CInt 3; CInt 4])]
                            None)).
Proof. vm_compute. repeat split; discriminate. Qed.

(** C2, as amended.  Whatever pandas and pyarrow do: when the evaluation of
    the filter expression fails with an exception, the tool returns,
    without raising, the value that [table] holds at that point.  That is
    the input itself when it is a table, the table the input was converted
    to when it is a dict or a frame, and the input itself when it is of
    another type or could not be converted.  In each case the data is
    unfiltered. *)
Theorem filter_arrow_table_by_expr_failure_returns_rebound (lib : Pandas)
    (table : pyvalue) (filter_expr : string) (w : World) :
  evaluation_fails lib table filter_expr w = true ->
  snd (filter_arrow_table_by_expr lib table filter_expr w)
  = Return (rebound lib table).
Proof.
  unfold evaluation_fails, rebound.
  destruct (normalized lib table) as [t|] eqn:Hnorm.
  - rewrite (filter_arrow_table_by_expr_normalized lib table filter_expr w t Hnorm).
    by destruct (snd (evaluate lib filter_expr t (rebind_world table w))).
  - intros _. by apply filter_arrow_table_by_expr_not_normalized.
Qed.

Lemma filter_arrow_table_by_expr_failure_returns_rebound_witness :
  let lib := model_library query_pandas2 in
  evaluation_fails lib (PyTable sample_table) "a > 1 and" empty_world = true
  /\ snd (filter_arrow_table_by_expr lib (PyTable sample_table) "a > 1 and"
            empty_world)
     = Return (PyTable sample_table).
Proof.
  split; [reflexivity|].
  apply (filter_arrow_table_by_expr_failure_returns_rebound
           (model_library query_pandas2) (PyTable sample_table) "a > 1 and"
           empty_world).
  reflexivity.
Defined.

(** *** Column-wise evaluation agrees with the meaning on rows *)








(** *** Selecting rows by a mask *)











(** *** Well-formed tables and their frames *)














(** *** No matching row *)






(** * Further properties of the tools *)

(** ** [write_table_to_csv], beyond mappings *)

(** X1.  Whatever lacks one of the two attributes read by the first statement
    makes the tool raise [AttributeError] before its [try]: nothing is
    printed and nothing is written. *)
Theorem write_table_to_csv_requires_table_attributes (fault : oracle)
    (csv_view : Table -> file)
    (csv_failed : Table -> string -> World -> option file)
    (table : pyvalue) (output_path : string) (w : World) :
  has_attr table "num_rows" && has_attr table "num_columns" = false ->
  exists name,
    write_table_to_csv fault csv_view csv_failed table output_path w
    = (w, Raise (Exn AttributeError name)).
Proof.
  unfold write_table_to_csv, getattr, has_attr.
  destruct table as [| | | | | | t | df]; cbn; intros H; run_py; eauto; [done|].
  destruct (assoc "num_rows" (dcols df)); run_py; [|eauto].
  destruct (assoc "num_columns" (dcols df)); run_py; [done|eauto].
Qed.

Lemma write_table_to_csv_requires_table_attributes_witness :
  let table := PyRecords [[("a", CInt 1)]] in
  has_attr table "num_rows" && has_attr table "num_columns" = false
  /\ exists name,
       write_table_to_csv no_fault csv_as_written csv_unopened table "out.csv"
         empty_world
       = (empty_world, Raise (Exn AttributeError name)).
Proof.
  split; [reflexivity|].
  apply (write_table_to_csv_requires_table_attributes no_fault csv_as_written
           csv_unopened (PyRecords [[("a", CInt 1)]]) "out.csv" empty_world).
  reflexivity.
Defined.

(** X2.  On a table the tool never raises.  It answers [True] exactly when
    the write does not fail, and then the file at the output path holds the
    text written for the table.  However the call ends, directories and
    figures are as they were. *)
Theorem write_table_to_csv_table_contract (fault : oracle)
    (csv_view : Table -> file)
    (csv_failed : Table -> string -> World -> option file)
    (t : Table) (output_path : string) (w : World) :
  exists w' b,
    write_table_to_csv fault csv_view csv_failed (PyTable t) output_path w
    = (w', Return b)
    /\ b = bool_decide (fault (WriteCsv output_path) (printed [read_table_line t] w)
                        = None)
    /\ (b = true -> files w' !! output_path = Some (csv_view t))
    /\ dirs w' = dirs w /\ figures w' = figures w.
Proof.
  unfold write_table_to_csv, pacsv_write_csv, printed, read_table_line. run_py.
  destruct (fault _ _) as [e|] eqn:Hf; run_py.
  - destruct (csv_failed _ _ _) as [f|]; run_py; by eexists _, false.
  - eexists _, true. repeat split; try done.
    intros _. cbn. by rewrite lookup_insert_eq.
Qed.

(** ** [read_csv_with_arrow]: what it leaves behind *)

(** X3.  Without the Parquet option the tool leaves every file as it was.
    When it returns a table and the Parquet file was asked for, the file at
    the Parquet path holds that table.  Directories and figures are never
    touched. *)
Theorem read_csv_with_arrow_writes_at_most_parquet (fault : oracle)
    (file_path : string) (display_data to_parquet : bool)
    (parquet_path : option string) (w : World) :
  exists w' v,
    read_csv_with_arrow fault file_path display_data to_parquet parquet_path w
    = (w', Return v)
    /\ (to_parquet = false -> files w' = files w)
    /\ (forall t, to_parquet = true -> v = PyTable t ->
          files w' !! parquet_target file_path parquet_path = Some (ParquetFile t))
    /\ dirs w' = dirs w /\ figures w' = figures w.
Proof.
  destruct (read_csv_with_arrow_run fault file_path display_data to_parquet
              parquet_path w) as (w' & v & Hrun & Hdirs & Hfigs & Hcases).
  exists w', v. split; [exact Hrun|]. split; [|split; [|done]].
  - intros ->. destruct (pacsv_read_csv _ _ _) as [w1 [t|e]].
    + by destruct Hcases as [_ H].
    + by destruct Hcases as (_ & _ & H).
  - intros t -> ->. destruct (pacsv_read_csv _ _ _) as [w1 [t0|e]].
    + destruct (fault (WriteParquet _) _); [by destruct Hcases|].
      destruct Hcases as [[= ->] ->]. apply lookup_insert_eq.
    + by destruct Hcases.
Qed.

(** X4.  When the path holds no delimited file (nothing is there, or a file of
    another kind), the tool returns [None], whatever the options and the
    environment. *)
Theorem read_csv_with_arrow_unreadable (fault : oracle) (file_path : string)
    (display_data to_parquet : bool) (parquet_path : option string) (w : World) :
  (forall t, files w !! file_path <> Some (DelimitedFile t)) ->
  snd (read_csv_with_arrow fault file_path display_data to_parquet parquet_path w)
  = Return PyNone.
Proof.
  intros Hnone.
  unfold read_csv_with_arrow, pacsv_read_csv, external. run_py.
  destruct (fault (ReadCsv file_path) w) as [e|]; run_py.
  { destruct (is_ArrowInvalid e); by run_py. }
  destruct (files w !! file_path) as [[t| | |]|] eqn:Hf; run_py; try done.
  by destruct (Hnone t).
Qed.

Lemma read_csv_with_arrow_unreadable_witness :
  (forall t, files empty_world !! "missing.csv" <> Some (DelimitedFile t))
  /\ snd (read_csv_with_arrow no_fault "missing.csv" true true None empty_world)
     = Return PyNone.
Proof.
  assert (H : forall t, files empty_world !! "missing.csv" <> Some (DelimitedFile t)).
  { intros t. vm_compute. discriminate. }
  split; [exact H|].
  apply (read_csv_with_arrow_unreadable no_fault "missing.csv" true true None
           empty_world H).
Defined.
(** ** The default Parquet path and the extension of the file name *)

Lemma default_parquet_path_replaces_last_suffix_witness :
  before_last "." "csv" = None
  /\ default_parquet_path ("data/input" +:+ String "." "csv")
     = "data/input" +:+ ".parquet".
Proof.
  split; [reflexivity|].
  apply (default_parquet_path_replaces_last_suffix "data/input" "csv").
  reflexivity.
Defined.

Lemma string_app_assoc (a b c : string) : (a +:+ b) +:+ c = a +:+ (b +:+ c).
Proof.
  induction a as [|x a IH]; [done|].
  change (String x ((a +:+ b) +:+ c) = String x (a +:+ (b +:+ c))). by rewrite IH.
Qed.

Lemma before_last_app_None (c : ascii) (a b : string) :
  before_last c a = None -> before_last c b = None ->
  before_last c (a +:+ b) = None.
Proof.
  intros Ha Hb. induction a as [|x a IH]; [done|].
  change (before_last c (String x (a +:+ b)) = None).
  simpl in Ha |- *. destruct (before_last c a); [done|].
  rewrite IH by done. by destruct (Ascii.eqb x c).
Qed.

Lemma before_last_cons_None (c x : ascii) (s : string) :
  x <> c -> before_last c s = None -> before_last c (String x s) = None.
Proof.
  intros Hx Hs. simpl. rewrite Hs. by apply Ascii.eqb_neq in Hx as ->.
Qed.

Lemma after_last_None (c : ascii) (s : string) :
  before_last c s = None -> after_last c s = None.
Proof.
  induction s as [|x s IH]; [done|]. simpl.
  destruct (before_last c s); [done|]. rewrite IH by done.
  by destruct (Ascii.eqb x c).
Qed.

Lemma after_last_app_sep (c : ascii) (stem rest : string) :
  before_last c rest = None ->
  after_last c (stem +:+ String c rest) = Some rest.
Proof.
  intros Hrest. induction stem as [|x stem IH].
  - change (after_last c (String c rest) = Some rest). simpl.
    by rewrite (after_last_None _ _ Hrest), Ascii.eqb_refl.
  - change (after_last c (String x (stem +:+ String c rest)) = Some rest).
    simpl. by rewrite IH.
Qed.

(** X5.  Where the code is right.  When the file name starts with a character
    other than a dot, and ends in a dot and an extension without a further
    dot, the default Parquet path is the input path with that extension
    replaced, whether the file is named with a directory or without. *)
Theorem default_parquet_path_replaces_extension (prefix base ext : string) (c : ascii) :
  prefix = "" \/ (exists dir, prefix = dir +:+ "/") ->
  c <> "."%char -> c <> "/"%char ->
  before_last "/" base = None ->
  before_last "/" ext = None ->
  before_last "." ext = None ->
  default_parquet_path (prefix +:+ String c base +:+ String "." ext)
  = prefix +:+ String c base +:+ ".parquet"
  /\ with_parquet_extension (prefix +:+ String c base +:+ String "." ext)
     = prefix +:+ String c base +:+ ".parquet".
Proof.
  intros Hprefix Hdot Hslash Hbase Hext Hext'.
  assert (Hname : before_last "/" (String c base +:+ String "." ext) = None).
  { apply before_last_app_None; [by apply before_last_cons_None|].
    by apply before_last_cons_None. }
  assert (Hstem : before_last "." (String c base +:+ String "." ext)
                  = Some (String c base)).
  { by apply before_last_app_sep. }
  split.
  - rewrite <- !string_app_assoc. by apply default_parquet_path_replaces_last_suffix.
  - unfold with_parquet_extension, splitext_root.
    destruct Hprefix as [->|[dir ->]].
    + change ("" +:+ ?s) with s. rewrite Hname, (after_last_None _ _ Hname).
      change (String c base +:+ String "." ext)
        with (String c (base +:+ String "." ext)) at 1.
      cbn [leading_dots]. apply Ascii.eqb_neq in Hdot as ->.
      change (String c (base +:+ String "." ext))
        with (String c base +:+ String "." ext).
      by rewrite Hstem.
    + rewrite string_app_assoc.
      change ("/" +:+ ?s) with (String "/" s).
      rewrite (before_last_app_sep "/" dir _ Hname).
      rewrite (after_last_app_sep "/" dir _ Hname).
      change (String c base +:+ String "." ext)
        with (String c (base +:+ String "." ext)) at 1.
      cbn [leading_dots]. apply Ascii.eqb_neq in Hdot as ->.
      change (String c (base +:+ String "." ext))
        with (String c base +:+ String "." ext).
      rewrite Hstem. rewrite !string_app_assoc. reflexivity.
Qed.

Lemma default_parquet_path_replaces_extension_witness :
  ("data/" = "" \/ (exists dir, "data/" = dir +:+ "/"))
  /\ "i"%char <> "."%char /\ "i"%char <> "/"%char
  /\ before_last "/" "nput" = None
  /\ before_last "/" "csv" = None
  /\ before_last "." "csv" = None
  /\ default_parquet_path ("data/" +:+ String "i" "nput" +:+ String "." "csv")
     = "data/" +:+ String "i" "nput" +:+ ".parquet"
  /\ with_parquet_extension ("data/" +:+ String "i" "nput" +:+ String "." "csv")
     = "data/" +:+ String "i" "nput" +:+ ".parquet".
Proof.
  assert (Hp : "data/" = "" \/ (exists dir, "data/" = dir +:+ "/")).
  { right. exists "data". reflexivity. }
  assert (H1 : "i"%char <> "."%char) by discriminate.
  assert (H2 : "i"%char <> "/"%char) by discriminate.
  split; [exact Hp|]. split; [exact H1|]. split; [exact H2|].
  split; [reflexivity|]. split; [reflexivity|]. split; [reflexivity|].
  exact (default_parquet_path_replaces_extension "data/" "nput" "csv" "i"
           Hp H1 H2 eq_refl eq_refl eq_refl).
Defined.

(** ** [plot_dict_and_save]: files and directories *)



(** X7.  The tool never removes a directory, however the call ends.  It adds
    directories only for a path whose directory part is neither a directory
    nor a file yet, and what it adds is that directory or a parent of
    it. *)
Theorem plot_dict_and_save_creates_only_missing_directory (fault : oracle)
    (data : pyvalue) (title xlabel ylabel : string) (save_path : option string)
    (w : World) :
  let w' := fst (plot_dict_and_save fault data title xlabel ylabel save_path w) in
  dirs w ⊆ dirs w'
  /\ (forall q, q ∈ dirs w' -> q ∉ dirs w ->
        exists p, save_path = Some p
                  /\ dirname p <> ""
                  /\ (dirname p ∉ dirs w)
                  /\ files w !! dirname p = None
                  /\ (q = dirname p \/ q ∈ ancestors (dirname p))).
Proof.
  cbn zeta. destruct data as [| | | |d| | |]; try (by split).
  unfold_plot. run_py.
  destruct (fault PltBar _); run_py; [by split|].
  destruct save_path as [p|]; run_py; [|by split].
  destruct (String.eqb (dirname p) "") eqn:Hdn; run_py.
  { destruct (fault (Savefig _) _); run_py; by split. }
  apply String.eqb_neq in Hdn.
  destruct (bool_decide (dirname p ∈ dirs w)) eqn:Hd; run_py.
  { destruct (fault (Savefig _) _); run_py; by split. }
  destruct (bool_decide (is_Some (files w !! dirname p))) eqn:Hf; run_py.
  { destruct (fault (Savefig _) _); run_py; by split. }
  pose proof (proj1 (bool_decide_eq_false _) Hd) as Hd'.
  pose proof (proj1 (bool_decide_eq_false _) Hf) as Hf'.
  assert (Hnone : files w !! dirname p = None).
  { destruct (files w !! dirname p) eqn:E; [|done]. destruct Hf'. eauto. }
  assert (Hgoal : forall w2 : World,
            dirs w ⊆ dirs w2 ->
            (forall q, q ∈ dirs w2 ->
                       q ∈ dirs w \/ q ∈ ancestors (dirname p) \/ q = dirname p) ->
            dirs w ⊆ dirs w2
            /\ (forall q, q ∈ dirs w2 -> q ∉ dirs w ->
                  exists p0, Some p = Some p0
                             /\ dirname p0 <> ""
                             /\ (dirname p0 ∉ dirs w)
                             /\ files w !! dirname p0 = None
                             /\ (q = dirname p0 \/ q ∈ ancestors (dirname p0)))).
  { intros w2 Hsub Hadd. split; [done|]. intros q Hq Hnew.
    exists p. repeat split; try done.
    destruct (Hadd q Hq) as [?|[?|?]]; [done|by right|by left]. }
  makedirs_cases fault; run_py.
  - destruct (fault (Savefig _) _); run_py; by apply Hgoal.
  - by apply Hgoal.
Qed.

(** X8.  After a call that returns, the directory part of the path, if it has
    one, exists: as a directory, or (the oracle permitting the write) as a
    file that was there before. *)
Theorem plot_dict_and_save_directory_exists (fault : oracle) (data : pyvalue)
    (title xlabel ylabel : string) (save_path : option string) (w w' : World) :
  plot_dict_and_save fault data title xlabel ylabel save_path w = (w', Return tt) ->
  exists p, save_path = Some p
            /\ (dirname p = ""
                \/ dirname p ∈ dirs w'
                \/ is_Some (files w !! dirname p)).
Proof.
  destruct data as [| | | |d| | |]; try done.
  unfold_plot. run_py.
  destruct (fault PltBar _); run_py; [done|].
  destruct save_path as [p|]; run_py; [|done].
  intros H. exists p. split; [done|]. revert H.
  destruct (String.eqb (dirname p) "") eqn:Hdn; run_py.
  { apply String.eqb_eq in Hdn. by left. }
  destruct (bool_decide (dirname p ∈ dirs w)) eqn:Hd; run_py.
  { apply bool_decide_eq_true in Hd.
    destruct (fault (Savefig _) _); run_py; [done|]. intros [= <-]. by right; left. }
  destruct (bool_decide (is_Some (files w !! dirname p))) eqn:Hf; run_py.
  { apply bool_decide_eq_true in Hf.
    destruct (fault (Savefig _) _); run_py; [done|]. intros _. by right; right. }
  makedirs_cases fault; run_py; [|done].
  destruct (fault (Savefig _) _); run_py; [done|]. intros [= <-]. cbn.
  right; left. by apply Hret.
Qed.

Lemma plot_dict_and_save_directory_exists_witness :
  let w' := fst (plot_dict_and_save no_fault sample_chart "Dict Plot" "Keys"
                   "Values" (Some "out/dir/chart.png") empty_world) in
  plot_dict_and_save no_fault sample_chart "Dict Plot" "Keys" "Values"
    (Some "out/dir/chart.png") empty_world = (w', Return tt)
  /\ exists p, Some "out/dir/chart.png" = Some p
               /\ (dirname p = ""
                   \/ dirname p ∈ dirs w'
                   \/ is_Some (files empty_world !! dirname p)).
Proof.
  cbn zeta.
  assert (H : plot_dict_and_save no_fault sample_chart "Dict Plot" "Keys" "Values"
                (Some "out/dir/chart.png") empty_world
              = (fst (plot_dict_and_save no_fault sample_chart "Dict Plot" "Keys"
                        "Values" (Some "out/dir/chart.png") empty_world),
                 Return tt)).
  { reflexivity. }
  split; [exact H|].
  exact (plot_dict_and_save_directory_exists no_fault sample_chart "Dict Plot"
           "Keys" "Values" (Some "out/dir/chart.png") empty_world _ H).
Defined.

(** X9.  Called on a dict without a path (the default [save_path=None]), the tool
    always raises, and leaves files and directories as they were. *)
Theorem plot_dict_and_save_without_path_raises (fault : oracle) (d : pydict)
    (title xlabel ylabel : string) (w : World) :
  exists w' e,
    plot_dict_and_save fault (PyDict d) title xlabel ylabel None w = (w', Raise e)
    /\ files w' = files w /\ dirs w' = dirs w.
Proof.
  unfold_plot. run_py.
  destruct (fault PltBar _); run_py; by eexists _, _.
Qed.

(** ** [filter_arrow_table_by_expr]: edge cases *)

(** X11.  A value that is neither a dict, nor a frame, nor a table ([None], a
    number, a string, a list of records) is returned as it was passed,
    whatever the expression and whatever the libraries do. *)
Theorem filter_arrow_table_by_expr_passes_other_values
    (lib : Pandas) (table : pyvalue) (filter_expr : string) (w : World) :
  isinstance_dict table = false ->
  isinstance_DataFrame table = false ->
  isinstance_Table table = false ->
  snd (filter_arrow_table_by_expr lib table filter_expr w) = Return table.
Proof. by destruct table. Qed.

Lemma filter_arrow_table_by_expr_passes_other_values_witness :
  isinstance_dict PyNone = false
  /\ isinstance_DataFrame PyNone = false
  /\ isinstance_Table PyNone = false
  /\ snd (filter_arrow_table_by_expr (model_library query_pandas2) PyNone "a > 1"
            empty_world)
     = Return PyNone.
Proof.
  split; [reflexivity|]. split; [reflexivity|]. split; [reflexivity|].
  apply (filter_arrow_table_by_expr_passes_other_values
           (model_library query_pandas2) PyNone "a > 1" empty_world); reflexivity.
Defined.

Lemma array_lengths_assoc (d : pydict) (k : string) (cs : list cell) :
  assoc k d = Some (Array cs) -> In (length cs) (array_lengths d).
Proof.
  unfold array_lengths.
  induction d as [|[k' v] d IH]; [done|]. cbn.
  destruct (String.eqb k k').
  - intros [= ->]. cbn. by left.
  - intros H. destruct v; cbn; [|right]; by apply IH.
Qed.

(** A dict whose arrays differ in length does not convert to a frame. *)
Lemma DataFrame_of_dict_ragged (d : pydict) (k1 k2 : string) (a b : list cell) :
  assoc k1 d = Some (Array a) -> assoc k2 d = Some (Array b) ->
  length a <> length b ->
  exists x, DataFrame_of_dict d = Raise x.
Proof.
  intros H1 H2 Hne. unfold DataFrame_of_dict.
  destruct d as [|kv d]; [done|].
  apply array_lengths_assoc in H1, H2.
  destruct (array_lengths (kv :: d)) as [|n ns]; [eauto|].
  destruct (all_equal n ns) eqn:Hall; [|eauto].
  exfalso. apply Hne.
  assert (Hn : forall m, In m (n :: ns) -> m = n).
  { intros m [->|Hm]; [done|]. unfold all_equal in Hall.
    rewrite List.forallb_forall in Hall. symmetry. by apply Nat.eqb_eq, Hall. }
  by rewrite (Hn _ H1), (Hn _ H2).
Qed.

(** X13.  A mapping with two columns of different lengths cannot be normalized:
    the tool returns the mapping itself, as it was passed. *)
Theorem filter_arrow_table_by_expr_ragged_mapping
    (q : DataFrame -> string -> Py DataFrame) (d : pydict) (filter_expr : string)
    (w : World) (k1 k2 : string) (a b : list cell) :
  assoc k1 d = Some (Array a) -> assoc k2 d = Some (Array b) ->
  length a <> length b ->
  snd (filter_arrow_table_by_expr (model_library q) (PyDict d) filter_expr w)
  = Return (PyDict d).
Proof.
  intros H1 H2 Hne.
  destruct (DataFrame_of_dict_ragged d k1 k2 a b H1 H2 Hne) as [x Hx].
  unfold filter_arrow_table_by_expr, try_except_rebinding, from_pandas_DataFrame.
  cbn [pd_DataFrame model_library]. rewrite Hx. by run_py.
Qed.

Lemma filter_arrow_table_by_expr_ragged_mapping_witness :
  assoc "a" ragged_mapping = Some (Array [CInt 1; CInt 2])
  /\ assoc "b" ragged_mapping = Some (Array [CInt 3])
  /\ length [CInt 1; CInt 2] <> length [CInt 3]
  /\ snd (filter_arrow_table_by_expr (model_library query_pandas2)
            (PyDict ragged_mapping) "a > 1" empty_world)
     = Return (PyDict ragged_mapping).
Proof.
  assert (Hne : length [CInt 1; CInt 2] <> length [CInt 3]).
  { simpl. lia. }
  split; [reflexivity|]. split; [reflexivity|]. split; [exact Hne|].
  exact (filter_arrow_table_by_expr_ragged_mapping query_pandas2 ragged_mapping
           "a > 1" empty_world "a" "b" _ _ eq_refl eq_refl Hne).
Defined.

(** ** [get_secret_word] *)

(** X16.  Whatever the generator draws, within its contract, the word returned is
    one of the three, and nothing but standard output changes. *)
Theorem get_secret_word_in_list (randbelow : nat -> World -> nat) (w : World) :
  (forall n w0, (0 < n)%nat -> (randbelow n w0 < n)%nat) ->
  exists w' word,
    get_secret_word randbelow w = (w', Return word)
    /\ In word ["apple"; "banana"; "cherry"]
    /\ files w' = files w /\ dirs w' = dirs w /\ figures w' = figures w.
Proof.
  intros Hdraw. unfold get_secret_word, random_choice. run_py.
  eexists _, _. split; [reflexivity|]. split; [|done].
  match goal with |- context [randbelow 3%nat ?w0] =>
    specialize (Hdraw 3%nat w0 ltac:(lia)); destruct (randbelow 3%nat w0) as [|[|[|i]]]
  end; cbn; [tauto|tauto|tauto|lia].
Qed.

Lemma get_secret_word_in_list_witness :
  (forall n w0, (0 < n)%nat -> (draws_first n w0 < n)%nat)
  /\ exists w' word,
       get_secret_word draws_first empty_world = (w', Return word)
       /\ In word ["apple"; "banana"; "cherry"]
       /\ files w' = files empty_world /\ dirs w' = dirs empty_world
       /\ figures w' = figures empty_world.
Proof.
  assert (H : forall n w0, (0 < n)%nat -> (draws_first n w0 < n)%nat).
  { intros n w0 Hn. simpl. exact Hn. }
  split; [exact H|].
  exact (get_secret_word_in_list draws_first empty_world H).
Defined.
